(** * runtime/globals.h: build-time constants of the ART runtime

    A shallow embedding of [runtime/globals.h].  The header is a list of
    [static constexpr] constants, most of them selected by preprocessor
    conditionals, one [static inline] function and three [#error]
    directives.  Two things the header leaves to its environment are made
    explicit here:

    - the set of macros that are defined when the preprocessor reaches
      line 25 (after [read_barrier_c.h] and [read_barrier_option.h] have
      been included): a finite set of macro names;
    - the data model of the compiler (the width of [size_t], [intptr_t]
      and [uintptr_t]): ILP32 or LP64, the two ART is built for.

    Integers are [Z] with the wrap-around of their C++ type written out. *)

From Stdlib Require Import ZArith Lia.
From stdpp Require Import base strings gmap.

Local Open Scope string_scope.
Local Open Scope Z_scope.

(** ** C++ integer types *)

Module Cxx.

Inductive DataModel := ILP32 | LP64.

(** [sizeof(intptr_t)], [sizeof(uintptr_t)] and [sizeof(size_t)], in bytes. *)
Definition sizeof_intptr_t (dm : DataModel) : Z :=
  match dm with ILP32 => 4 | LP64 => 8 end.

(** [CHAR_BIT]; 8 on every platform with a [uint32_t] of size 4. *)
Definition CHAR_BIT : Z := 8.

Definition uintptr_bits (dm : DataModel) : Z := sizeof_intptr_t dm * CHAR_BIT.

(** [int] and [unsigned int] are 32 bits wide in both data models. *)
Definition int_bits : Z := 32.

(** [UINT_MAX] of [<limits.h>]. *)
Definition UINT_MAX : Z := 2 ^ int_bits - 1.

(** Conversion to an unsigned type of [w] bits: reduction modulo [2^w]. *)
Definition to_unsigned (w : Z) (z : Z) : Z := z mod 2 ^ w.

(** Conversion to a signed type of [w] bits (two's complement). *)
Definition to_signed (w : Z) (z : Z) : Z :=
  (z + 2 ^ (w - 1)) mod 2 ^ w - 2 ^ (w - 1).

Definition to_int : Z -> Z := to_signed int_bits.
Definition to_unsigned_int : Z -> Z := to_unsigned int_bits.
Definition to_size_t (dm : DataModel) : Z -> Z := to_unsigned (uintptr_bits dm).
Definition to_uintptr_t (dm : DataModel) : Z -> Z := to_unsigned (uintptr_bits dm).

(** The values of type [uintptr_t]. *)
Definition is_uintptr_t (dm : DataModel) (z : Z) : Prop :=
  0 <= z < 2 ^ uintptr_bits dm.

(** [sizeof(uint32_t)]: an exact-width type of 32 bits, counted in bytes. *)
Definition sizeof_uint32_t : Z := 32 / CHAR_BIT.

End Cxx.

(** ** The preprocessor *)

Module Cpp.

(** The macros that are defined form a finite set of names, a
    [gset string].  [defined name D] is [defined(NAME)], and [#ifdef NAME]. *)
Definition defined (name : string) (D : gset string) : bool :=
  bool_decide (name ∈ D).

(** The outcome of translating a piece of the header: the constants it
    declares, or the message of the [#error] directive that was reached. *)
Inductive Build (A : Type) : Type :=
| Ok (a : A)
| Error (msg : string).
Global Arguments Ok {A} a.
Global Arguments Error {A} msg.

Global Instance Build_ret : MRet Build := fun A a => Ok a.
Global Instance Build_bind : MBind Build := fun A B f m =>
  match m with
  | Ok a => f a
  | Error msg => Error msg
  end.

Definition fails {A : Type} (m : Build A) : Prop :=
  match m with Ok _ => False | Error _ => True end.

End Cpp.

Import Cxx Cpp.

(** ** namespace art *)

Module art.

Definition KB : Z := 1024.

(** Kinds of tracing clocks. *)
Inductive TraceClockSource :=
| kThreadCpu
| kWall
| kDual.  (* Both wall and thread CPU clocks. *)

(** The two constants declared by the [ART_TARGET] block (lines 67-86). *)
Record Target := mkTarget {
  kIsTargetBuild : bool;
  kIsTargetLinux : bool
}.

Section Globals.
(** The data model of the compiler. *)
Variable dm : DataModel.
(** The macros defined after the two includes. *)
Variable D : gset string.

Definition MB : Z := to_size_t dm (KB * KB).
Definition GB : Z := to_size_t dm (to_size_t dm (KB * KB) * KB).

(** Runtime sizes. *)
Definition kBitsPerByte : Z := 8.
Definition kBitsPerByteLog2 : Z := 3.
Definition kBitsPerIntPtrT : Z :=
  to_int (to_size_t dm (sizeof_intptr_t dm * kBitsPerByte)).

(** Required stack alignment *)
Definition kStackAlignment : Z := 16.

(** System page size: an [int]. *)
Definition kPageSize : Z := 4096.

(** Returns whether the given memory offset can be used for generating
    an implicit null check.  [offset] is a [uintptr_t]; [kPageSize] is
    an [int], converted to [uintptr_t] by the usual arithmetic
    conversions, so the comparison is unsigned. *)
Definition CanDoImplicitNullCheckOn (offset : Z) : bool :=
  offset <? to_uintptr_t dm kPageSize.

(** Required object alignment *)
Definition kObjectAlignmentShift : Z := 3.
(** [1u << kObjectAlignmentShift]: the left operand is an
    [unsigned int], so is the result, reduced modulo [2^32]; then the
    conversion to [size_t]. *)
Definition kObjectAlignment : Z :=
  to_size_t dm (to_unsigned_int (Z.shiftl 1 kObjectAlignmentShift)).
Definition kLargeObjectAlignment : Z := to_size_t dm kPageSize.

(** Whether or not this is a debug build. *)
Definition kIsDebugBuild : bool :=
  if defined "NDEBUG" D then false else true.

(** Lines 67-86. *)
Definition target_block : Build Target :=
  if defined "ART_TARGET" D then
    if defined "ART_TARGET_LINUX" D then
      Ok {| kIsTargetBuild := true; kIsTargetLinux := true |}
    else if defined "ART_TARGET_ANDROID" D then
      Ok {| kIsTargetBuild := true; kIsTargetLinux := false |}
    else
      Error "Either ART_TARGET_LINUX or ART_TARGET_ANDROID needs to be defined for target builds."
  else
    if defined "ART_TARGET_LINUX" D then
      Error "ART_TARGET_LINUX defined for host build."
    else if defined "ART_TARGET_ANDROID" D then
      Error "ART_TARGET_ANDROID defined for host build."
    else
      Ok {| kIsTargetBuild := false; kIsTargetLinux := false |}.

(** Additional statically-linked ART binaries are always available on
    the host. *)
Definition kHostStaticBuildEnabled : bool :=
  if negb (defined "ART_TARGET" D) then true else false.

(** Garbage collector constants.  The two derived ones are written as
    functions of the constant they are derived from, and applied to it. *)
Definition kMovingCollector : bool := true.
Definition kMarkCompactSupport_from (moving_collector : bool) : bool :=
  false && moving_collector.
Definition kMarkCompactSupport : bool :=
  kMarkCompactSupport_from kMovingCollector.
(** True if we allow moving classes. *)
Definition kMovingClasses_from (mark_compact_support : bool) : bool :=
  negb mark_compact_support.
Definition kMovingClasses : bool := kMovingClasses_from kMarkCompactSupport.

Definition kEmbedClassInCode : bool := true.

Definition kUseBakerReadBarrier : bool :=
  if defined "USE_BAKER_READ_BARRIER" D then true else false.
Definition kUseBrooksReadBarrier : bool :=
  if defined "USE_BROOKS_READ_BARRIER" D then true else false.
Definition kUseTableLookupReadBarrier : bool :=
  if defined "USE_TABLE_LOOKUP_READ_BARRIER" D then true else false.

Definition kUseBakerOrBrooksReadBarrier : bool :=
  kUseBakerReadBarrier || kUseBrooksReadBarrier.
Definition kUseReadBarrier : bool :=
  kUseBakerReadBarrier || kUseBrooksReadBarrier || kUseTableLookupReadBarrier.

(** Debugging flag that forces the generation of read barriers, but
    does not trigger the use of the concurrent copying GC. *)
Definition kForceReadBarrier : bool := false.
Definition kEmitCompilerReadBarrier_from (force_read_barrier : bool) : bool :=
  force_read_barrier || kUseReadBarrier.
Definition kEmitCompilerReadBarrier : bool :=
  kEmitCompilerReadBarrier_from kForceReadBarrier.

(** If true, references within the heap are poisoned (negated). *)
Definition kPoisonHeapReferences : bool :=
  if defined "USE_HEAP_POISONING" D then true else false.

(** If true, enable the tlab allocator by default. *)
Definition kUseTlab : bool :=
  if defined "ART_USE_TLAB" D then true else false.

Definition kDefaultTraceClockSource : TraceClockSource :=
  if defined "__linux__" D then kDual else kWall.

Definition kDefaultMustRelocate : bool := false.

Definition kArm32QuickCodeUseSoftFloat : bool := false.

Definition kIsVdexEnabled : bool :=
  if defined "ART_ENABLE_VDEX" D then true else false.

(** Size of a heap reference. *)
Definition kHeapReferenceSize : Z := to_size_t dm sizeof_uint32_t.

End Globals.

(** The constants a translation unit that includes the header sees. *)
Module Resolved.
Record t := mk {
  KB : Z;
  MB : Z;
  GB : Z;
  kBitsPerByte : Z;
  kBitsPerByteLog2 : Z;
  kBitsPerIntPtrT : Z;
  kStackAlignment : Z;
  kPageSize : Z;
  kObjectAlignmentShift : Z;
  kObjectAlignment : Z;
  kLargeObjectAlignment : Z;
  kIsDebugBuild : bool;
  kIsTargetBuild : bool;
  kIsTargetLinux : bool;
  kHostStaticBuildEnabled : bool;
  kMovingCollector : bool;
  kMarkCompactSupport : bool;
  kMovingClasses : bool;
  kEmbedClassInCode : bool;
  kUseBakerReadBarrier : bool;
  kUseBrooksReadBarrier : bool;
  kUseTableLookupReadBarrier : bool;
  kUseBakerOrBrooksReadBarrier : bool;
  kUseReadBarrier : bool;
  kForceReadBarrier : bool;
  kEmitCompilerReadBarrier : bool;
  kPoisonHeapReferences : bool;
  kUseTlab : bool;
  kDefaultTraceClockSource : TraceClockSource;
  kDefaultMustRelocate : bool;
  kArm32QuickCodeUseSoftFloat : bool;
  kIsVdexEnabled : bool;
  kHeapReferenceSize : Z
}.
End Resolved.

(** The header as a whole: the [#error] reached in the [ART_TARGET]
    block, or every constant. *)
Definition globals_h (dm : DataModel) (D : gset string) : Build Resolved.t :=
  target ← target_block D;
  mret {|
    Resolved.KB := KB;
    Resolved.MB := MB dm;
    Resolved.GB := GB dm;
    Resolved.kBitsPerByte := kBitsPerByte;
    Resolved.kBitsPerByteLog2 := kBitsPerByteLog2;
    Resolved.kBitsPerIntPtrT := kBitsPerIntPtrT dm;
    Resolved.kStackAlignment := kStackAlignment;
    Resolved.kPageSize := kPageSize;
    Resolved.kObjectAlignmentShift := kObjectAlignmentShift;
    Resolved.kObjectAlignment := kObjectAlignment dm;
    Resolved.kLargeObjectAlignment := kLargeObjectAlignment dm;
    Resolved.kIsDebugBuild := kIsDebugBuild D;
    Resolved.kIsTargetBuild := kIsTargetBuild target;
    Resolved.kIsTargetLinux := kIsTargetLinux target;
    Resolved.kHostStaticBuildEnabled := kHostStaticBuildEnabled D;
    Resolved.kMovingCollector := kMovingCollector;
    Resolved.kMarkCompactSupport := kMarkCompactSupport;
    Resolved.kMovingClasses := kMovingClasses;
    Resolved.kEmbedClassInCode := kEmbedClassInCode;
    Resolved.kUseBakerReadBarrier := kUseBakerReadBarrier D;
    Resolved.kUseBrooksReadBarrier := kUseBrooksReadBarrier D;
    Resolved.kUseTableLookupReadBarrier := kUseTableLookupReadBarrier D;
    Resolved.kUseBakerOrBrooksReadBarrier := kUseBakerOrBrooksReadBarrier D;
    Resolved.kUseReadBarrier := kUseReadBarrier D;
    Resolved.kForceReadBarrier := kForceReadBarrier;
    Resolved.kEmitCompilerReadBarrier := kEmitCompilerReadBarrier D;
    Resolved.kPoisonHeapReferences := kPoisonHeapReferences D;
    Resolved.kUseTlab := kUseTlab D;
    Resolved.kDefaultTraceClockSource := kDefaultTraceClockSource D;
    Resolved.kDefaultMustRelocate := kDefaultMustRelocate;
    Resolved.kArm32QuickCodeUseSoftFloat := kArm32QuickCodeUseSoftFloat;
    Resolved.kIsVdexEnabled := kIsVdexEnabled D;
    Resolved.kHeapReferenceSize := kHeapReferenceSize dm
  |}.

End art.

Import art.

(** Three build configurations used as examples below. *)
Definition host_build : gset string := {[ "NDEBUG"; "__linux__" ]}.
Definition android_build : gset string :=
  {[ "ART_TARGET"; "ART_TARGET_ANDROID"; "__linux__"; "USE_BAKER_READ_BARRIER" ]}.
Definition both_subflags_build : gset string :=
  {[ "ART_TARGET"; "ART_TARGET_LINUX"; "ART_TARGET_ANDROID" ]}.


(** Every macro the header tests, in the order of their first test
    (lines 55, 67, 70, 72, 106, 112, 118, 139, 146, 159 and 169). *)
Definition tested_macros : list string :=
  [ "NDEBUG"; "ART_TARGET"; "ART_TARGET_LINUX"; "ART_TARGET_ANDROID";
    "USE_BAKER_READ_BARRIER"; "USE_BROOKS_READ_BARRIER";
    "USE_TABLE_LOOKUP_READ_BARRIER"; "USE_HEAP_POISONING"; "ART_USE_TLAB";
    "__linux__"; "ART_ENABLE_VDEX" ].


Example host_build_target :
  target_block host_build = Ok {| kIsTargetBuild := false; kIsTargetLinux := false |}.
Proof. vm_compute. reflexivity. Qed.

Example android_build_target :
  target_block android_build = Ok {| kIsTargetBuild := true; kIsTargetLinux := false |}.
Proof. vm_compute. reflexivity. Qed.

Example no_subflag_fails :
  target_block {[ "ART_TARGET" ]} =
  Error "Either ART_TARGET_LINUX or ART_TARGET_ANDROID needs to be defined for target builds.".
Proof. vm_compute. reflexivity. Qed.

Example host_with_android_fails :
  target_block {[ "ART_TARGET_ANDROID" ]} = Error "ART_TARGET_ANDROID defined for host build.".
Proof. vm_compute. reflexivity. Qed.

(** ** The null-check range helper *)

Lemma to_uintptr_t_kPageSize (dm : DataModel) : to_uintptr_t dm kPageSize = 4096.
Proof. destruct dm; reflexivity. Qed.

(** C1. [CanDoImplicitNullCheckOn] is defined on every [uintptr_t] offset
    and answers [true] exactly for the offsets strictly below the page
    size; it answers [true] at 0 and 4095, [false] at 4096 and [UINT_MAX]. *)
Theorem CanDoImplicitNullCheckOn_spec (dm : DataModel) (offset : Z) :
  is_uintptr_t dm offset ->
  (exists b : bool, CanDoImplicitNullCheckOn dm offset = b
                    /\ (b = true <-> offset < kPageSize))
  /\ CanDoImplicitNullCheckOn dm 0 = true
  /\ CanDoImplicitNullCheckOn dm 4095 = true
  /\ CanDoImplicitNullCheckOn dm 4096 = false
  /\ is_uintptr_t dm UINT_MAX
  /\ CanDoImplicitNullCheckOn dm UINT_MAX = false.
Proof.
  intros _. split.
  - exists (CanDoImplicitNullCheckOn dm offset). split; [reflexivity|].
    unfold CanDoImplicitNullCheckOn. rewrite to_uintptr_t_kPageSize.
    unfold kPageSize. apply Z.ltb_lt.
  - destruct dm; repeat split; reflexivity || (vm_compute; congruence).
Qed.

(** ** The preprocessor's tests *)

Lemma defined_true (name : string) (D : gset string) :
  defined name D = true <-> name ∈ D.
Proof. unfold defined. apply bool_decide_eq_true. Qed.

Lemma defined_false (name : string) (D : gset string) :
  defined name D = false <-> name ∉ D.
Proof. unfold defined. apply bool_decide_eq_false. Qed.

(** Defining or undefining a macro leaves the test of every other macro
    as it was. *)
Lemma defined_define_other (name other : string) (D : gset string) :
  other ≠ name -> defined name (D ∪ {[ other ]}) = defined name D.
Proof.
  intros Hne. unfold defined. apply bool_decide_ext.
  rewrite elem_of_union, elem_of_singleton. intuition congruence.
Qed.

Lemma defined_undef_other (name other : string) (D : gset string) :
  other ≠ name -> defined name (D ∖ {[ other ]}) = defined name D.
Proof.
  intros Hne. unfold defined. apply bool_decide_ext.
  rewrite elem_of_difference, elem_of_singleton. intuition congruence.
Qed.

(** ** The header as a whole *)

(** The header fails to compile exactly when its [ART_TARGET] block does. *)
Lemma globals_h_fails (dm : DataModel) (D : gset string) :
  fails (globals_h dm D) <-> fails (target_block D).
Proof. unfold globals_h. destruct (target_block D); simpl; tauto. Qed.

(** From a hypothesis [H : globals_h dm D = Ok g]: the outcome of the
    [ART_TARGET] block, and [g] replaced by the table of constants. *)
Ltac resolved H :=
  let target := fresh "target" in
  let Htarget := fresh "Htarget" in
  unfold globals_h in H;
  match type of H with
  | context [target_block ?D] =>
      destruct (target_block D) as [target | ?] eqn:Htarget;
      simpl in H; [injection H as <- | discriminate H]
  end.

Lemma target_block_Ok (D : gset string) (target : Target) :
  target_block D = Ok target ->
  kIsTargetBuild target = defined "ART_TARGET" D
  /\ kIsTargetLinux target = defined "ART_TARGET_LINUX" D.
Proof.
  unfold target_block.
  destruct (defined "ART_TARGET" D), (defined "ART_TARGET_LINUX" D),
    (defined "ART_TARGET_ANDROID" D); intros [= <-]; split; reflexivity.
Qed.

(** ** The null-check range helper: an instance *)

Lemma CanDoImplicitNullCheckOn_spec_witness :
  is_uintptr_t LP64 4095
  /\ exists b : bool, CanDoImplicitNullCheckOn LP64 4095 = b
                      /\ (b = true <-> 4095 < kPageSize).
Proof.
  assert (Hrange : is_uintptr_t LP64 4095) by (vm_compute; split; congruence).
  split; [exact Hrange|].
  exact (proj1 (CanDoImplicitNullCheckOn_spec LP64 4095 Hrange)).
Defined.

(** ** Read barriers *)

(** C2. Whatever macros are defined, [kUseReadBarrier] is [true] exactly
    when at least one of [kUseBakerReadBarrier], [kUseBrooksReadBarrier]
    and [kUseTableLookupReadBarrier] is, that is when at least one of the
    three [USE_..._READ_BARRIER] macros is defined. *)
Theorem kUseReadBarrier_iff_some_kind (D : gset string) :
  (kUseReadBarrier D = true <->
     kUseBakerReadBarrier D = true
     \/ kUseBrooksReadBarrier D = true
     \/ kUseTableLookupReadBarrier D = true)
  /\ (kUseReadBarrier D = true <->
        "USE_BAKER_READ_BARRIER" ∈ D
        \/ "USE_BROOKS_READ_BARRIER" ∈ D
        \/ "USE_TABLE_LOOKUP_READ_BARRIER" ∈ D).
Proof.
  rewrite <- !defined_true.
  unfold kUseReadBarrier, kUseBakerReadBarrier, kUseBrooksReadBarrier,
    kUseTableLookupReadBarrier.
  destruct (defined "USE_BAKER_READ_BARRIER" D),
    (defined "USE_BROOKS_READ_BARRIER" D),
    (defined "USE_TABLE_LOOKUP_READ_BARRIER" D); simpl; intuition discriminate.
Qed.

(** C3. Whatever macros are defined, [kEmitCompilerReadBarrier] is [true]
    exactly when [kForceReadBarrier] is [true] or [kUseReadBarrier] is;
    the same holds of the defining expression for either value of the
    override.  In particular it is [true] whenever [kUseReadBarrier] is. *)
Theorem kEmitCompilerReadBarrier_iff (D : gset string) :
  (kEmitCompilerReadBarrier D = true <->
     kForceReadBarrier = true \/ kUseReadBarrier D = true)
  /\ (forall force : bool,
        kEmitCompilerReadBarrier_from D force = true <->
        force = true \/ kUseReadBarrier D = true)
  /\ (kUseReadBarrier D = true -> kEmitCompilerReadBarrier D = true).
Proof.
  unfold kEmitCompilerReadBarrier, kEmitCompilerReadBarrier_from.
  split; [apply orb_true_iff|].
  split; [intros force; apply orb_true_iff|].
  intros ->. apply orb_true_r.
Qed.

Lemma kEmitCompilerReadBarrier_iff_witness :
  kUseReadBarrier android_build = true
  /\ kEmitCompilerReadBarrier android_build = true.
Proof.
  assert (Huse : kUseReadBarrier android_build = true) by (vm_compute; reflexivity).
  split; [exact Huse|].
  exact (proj2 (proj2 (kEmitCompilerReadBarrier_iff android_build)) Huse).
Defined.

(** C9. Whatever macros are defined, [kEmitCompilerReadBarrier] equals
    [kUseReadBarrier]: [kForceReadBarrier] is [false], a constant that no
    macro selects. *)
Theorem kEmitCompilerReadBarrier_eq_kUseReadBarrier (D : gset string) :
  kForceReadBarrier = false
  /\ kEmitCompilerReadBarrier D = kUseReadBarrier D.
Proof. split; reflexivity. Qed.

(** ** The target validator *)

(** The [ART_TARGET] block fails exactly when [ART_TARGET] is defined
    with neither sub-flag, or is not defined while a sub-flag is. *)
Lemma target_block_fails_iff (D : gset string) :
  fails (target_block D) <->
    ("ART_TARGET" ∈ D /\ ("ART_TARGET_LINUX" ∉ D) /\ ("ART_TARGET_ANDROID" ∉ D))
    \/ (("ART_TARGET" ∉ D) /\ ("ART_TARGET_LINUX" ∈ D \/ "ART_TARGET_ANDROID" ∈ D)).
Proof.
  rewrite <- !defined_false, <- !defined_true. unfold target_block.
  destruct (defined "ART_TARGET" D), (defined "ART_TARGET_LINUX" D),
    (defined "ART_TARGET_ANDROID" D); simpl; intuition discriminate.
Qed.

(** C4, as the header has it.  The build fails exactly when [ART_TARGET]
    is defined and neither [ART_TARGET_LINUX] nor [ART_TARGET_ANDROID] is,
    or [ART_TARGET] is not defined and one of the two is.  Every other
    set of macros resolves to one platform identity: [kIsTargetBuild]
    tells whether [ART_TARGET] is defined, [kIsTargetLinux] whether
    [ART_TARGET_LINUX] is; a target build with both sub-flags is a
    target Linux build. *)
Theorem globals_h_fails_iff (dm : DataModel) (D : gset string) :
  (fails (globals_h dm D) <->
     ("ART_TARGET" ∈ D /\ ("ART_TARGET_LINUX" ∉ D) /\ ("ART_TARGET_ANDROID" ∉ D))
     \/ (("ART_TARGET" ∉ D) /\ ("ART_TARGET_LINUX" ∈ D \/ "ART_TARGET_ANDROID" ∈ D)))
  /\ (~ fails (globals_h dm D) ->
      exists g : Resolved.t,
        globals_h dm D = Ok g
        /\ (forall g' : Resolved.t, globals_h dm D = Ok g' -> g' = g)
        /\ Resolved.kIsTargetBuild g = defined "ART_TARGET" D
        /\ Resolved.kIsTargetLinux g = defined "ART_TARGET_LINUX" D)
  /\ ("ART_TARGET" ∈ D -> "ART_TARGET_LINUX" ∈ D -> "ART_TARGET_ANDROID" ∈ D ->
      exists g : Resolved.t,
        globals_h dm D = Ok g
        /\ Resolved.kIsTargetBuild g = true /\ Resolved.kIsTargetLinux g = true).
Proof.
  split; [rewrite globals_h_fails; apply target_block_fails_iff|].
  split.
  - intros Hok. destruct (globals_h dm D) as [g | msg] eqn:Hg; [|elim Hok; exact I].
    exists g. split; [reflexivity|]. split; [intros g' [= <-]; reflexivity|].
    resolved Hg. simpl. apply target_block_Ok. assumption.
  - rewrite <- !defined_true. intros HT HL HA.
    unfold globals_h, target_block. rewrite HT, HL. simpl.
    eexists. split; [reflexivity|]. split; reflexivity.
Qed.

Lemma globals_h_fails_iff_witness :
  ~ fails (globals_h LP64 android_build)
  /\ exists g : Resolved.t,
       globals_h LP64 android_build = Ok g
       /\ (forall g' : Resolved.t, globals_h LP64 android_build = Ok g' -> g' = g)
       /\ Resolved.kIsTargetBuild g = defined "ART_TARGET" android_build
       /\ Resolved.kIsTargetLinux g = defined "ART_TARGET_LINUX" android_build.
Proof.
  assert (Hok : ~ fails (globals_h LP64 android_build)) by (vm_compute; tauto).
  split; [exact Hok|].
  exact (proj1 (proj2 (globals_h_fails_iff LP64 android_build)) Hok).
Defined.

(** C4, as the specification words it, does not hold: with [ART_TARGET],
    [ART_TARGET_LINUX] and [ART_TARGET_ANDROID] all defined the header
    compiles, as a target Linux build. *)
Lemma both_subflags_build_resolves :
  "ART_TARGET" ∈ both_subflags_build
  /\ "ART_TARGET_LINUX" ∈ both_subflags_build
  /\ "ART_TARGET_ANDROID" ∈ both_subflags_build
  /\ target_block both_subflags_build
     = Ok {| kIsTargetBuild := true; kIsTargetLinux := true |}
  /\ exists g : Resolved.t,
       globals_h ILP32 both_subflags_build = Ok g
       /\ Resolved.kIsTargetBuild g = true
       /\ Resolved.kIsTargetLinux g = true.
Proof.
  rewrite <- !defined_true. repeat split; try (vm_compute; reflexivity).
  eexists. split; [vm_compute; reflexivity|]. split; reflexivity.
Qed.

(** ** Garbage collector constants *)

(** C5. In every configuration the header resolves, [kMarkCompactSupport]
    implies [kMovingCollector], and [kMovingClasses] is [true] exactly
    when [kMarkCompactSupport] is [false].  Both follow from the shape of
    the defining expressions, whatever the moving-collector constant is. *)
Theorem resolved_gc_constants (dm : DataModel) (D : gset string) (g : Resolved.t) :
  globals_h dm D = Ok g ->
  (Resolved.kMarkCompactSupport g = true -> Resolved.kMovingCollector g = true)
  /\ (Resolved.kMovingClasses g = true <-> Resolved.kMarkCompactSupport g = false)
  /\ (forall moving_collector : bool,
        (kMarkCompactSupport_from moving_collector = true -> moving_collector = true)
        /\ (kMovingClasses_from (kMarkCompactSupport_from moving_collector) = true
            <-> kMarkCompactSupport_from moving_collector = false)).
Proof.
  intros Hg. resolved Hg. simpl.
  split; [reflexivity|]. split; [split; reflexivity|].
  intros moving_collector. split; [discriminate|]. split; intros _; reflexivity.
Qed.

Lemma resolved_gc_constants_witness :
  exists g : Resolved.t,
    globals_h LP64 host_build = Ok g
    /\ (Resolved.kMarkCompactSupport g = true -> Resolved.kMovingCollector g = true)
    /\ (Resolved.kMovingClasses g = true <-> Resolved.kMarkCompactSupport g = false).
Proof.
  destruct (globals_h LP64 host_build) as [g | msg] eqn:Hg.
  - exists g. split; [reflexivity|].
    pose proof (resolved_gc_constants LP64 host_build g Hg) as (Himp & Hiff & _).
    split; assumption.
  - exfalso. vm_compute in Hg. discriminate Hg.
Defined.

(** C10. [kMarkCompactSupport] is [false] in every configuration: it is
    the constant [false] in conjunction with the moving-collector
    constant, [false] for either value of that constant; and
    [kMovingClasses] is [true]. *)
Theorem kMarkCompactSupport_false (dm : DataModel) (D : gset string) :
  kMarkCompactSupport = false
  /\ (forall moving_collector : bool,
        kMarkCompactSupport_from moving_collector = false)
  /\ kMovingClasses = true
  /\ match globals_h dm D with
     | Ok g => Resolved.kMarkCompactSupport g = false
               /\ Resolved.kMovingClasses g = true
     | Error _ => fails (target_block D)
     end.
Proof.
  split; [reflexivity|]. split; [reflexivity|]. split; [reflexivity|].
  unfold globals_h. destruct (target_block D); simpl; [split; reflexivity | exact I].
Qed.

(** ** Layout constants *)

(** C6. In both data models [kObjectAlignment] is 2 to the power
    [kObjectAlignmentShift], which is 3, hence 8; [kLargeObjectAlignment]
    is [kPageSize], 4096, a multiple of [kObjectAlignment]; and
    [kHeapReferenceSize] is 4. *)
Theorem layout_constants (dm : DataModel) :
  kObjectAlignmentShift = 3
  /\ kObjectAlignment dm = 2 ^ kObjectAlignmentShift
  /\ kObjectAlignment dm = 8
  /\ kPageSize = 4096
  /\ kLargeObjectAlignment dm = kPageSize
  /\ (kObjectAlignment dm | kLargeObjectAlignment dm)
  /\ kHeapReferenceSize dm = 4.
Proof.
  repeat split; try (destruct dm; reflexivity).
  exists 512. destruct dm; reflexivity.
Qed.

(** ** Static host binaries *)

Lemma kHostStaticBuildEnabled_eq (D : gset string) :
  kHostStaticBuildEnabled D = negb (defined "ART_TARGET" D).
Proof. unfold kHostStaticBuildEnabled. destruct (defined "ART_TARGET" D); reflexivity. Qed.

(** C7. In a configuration that resolves, [kHostStaticBuildEnabled] is
    [true] exactly when the build is a host build ([kIsTargetBuild] is
    [false]).  No macro other than [ART_TARGET] has a say: with any such
    [toggle] defined a host build still has [true], and a target build has
    [false] with [toggle] defined and with it undefined. *)
Theorem kHostStaticBuildEnabled_iff_host
    (dm : DataModel) (D : gset string) (g : Resolved.t) (toggle : string) :
  globals_h dm D = Ok g ->
  toggle ≠ "ART_TARGET" ->
  (Resolved.kHostStaticBuildEnabled g = true <-> Resolved.kIsTargetBuild g = false)
  /\ (Resolved.kIsTargetBuild g = false ->
      kHostStaticBuildEnabled (D ∪ {[ toggle ]}) = true)
  /\ (Resolved.kIsTargetBuild g = true ->
      kHostStaticBuildEnabled (D ∪ {[ toggle ]}) = false
      /\ kHostStaticBuildEnabled (D ∖ {[ toggle ]}) = false).
Proof.
  intros Hg Hne. resolved Hg. simpl.
  apply target_block_Ok in Htarget as [-> _].
  rewrite !kHostStaticBuildEnabled_eq.
  rewrite (defined_define_other _ _ _ Hne), (defined_undef_other _ _ _ Hne).
  destruct (defined "ART_TARGET" D); simpl; intuition discriminate.
Qed.

Lemma kHostStaticBuildEnabled_iff_host_witness :
  exists g : Resolved.t,
    globals_h LP64 host_build = Ok g
    /\ "ART_STATIC_HOST_BINARIES" ≠ "ART_TARGET"
    /\ (Resolved.kHostStaticBuildEnabled g = true <-> Resolved.kIsTargetBuild g = false)
    /\ kHostStaticBuildEnabled (host_build ∪ {[ "ART_STATIC_HOST_BINARIES" ]}) = true.
Proof.
  assert (Hne : "ART_STATIC_HOST_BINARIES" ≠ "ART_TARGET") by discriminate.
  destruct (globals_h LP64 host_build) as [g | msg] eqn:Hg.
  - exists g. split; [reflexivity|]. split; [exact Hne|].
    pose proof (kHostStaticBuildEnabled_iff_host LP64 host_build g _ Hg Hne)
      as (Hiff & Hhost & _).
    split; [exact Hiff|]. apply Hhost.
    vm_compute in Hg. injection Hg as <-. reflexivity.
  - exfalso. vm_compute in Hg. discriminate Hg.
Defined.

(** ** The tracing clock *)

(** C8. [kDefaultTraceClockSource] is [kDual] when [__linux__] is defined
    and [kWall] when it is not; it is one of the three clock sources; and
    two sets of macros that agree on [__linux__] give the same source. *)
Theorem kDefaultTraceClockSource_spec (D D' : gset string) :
  ("__linux__" ∈ D -> kDefaultTraceClockSource D = kDual)
  /\ ("__linux__" ∉ D -> kDefaultTraceClockSource D = kWall)
  /\ (kDefaultTraceClockSource D = kThreadCpu
      \/ kDefaultTraceClockSource D = kWall
      \/ kDefaultTraceClockSource D = kDual)
  /\ (("__linux__" ∈ D <-> "__linux__" ∈ D') ->
      kDefaultTraceClockSource D = kDefaultTraceClockSource D').
Proof.
  rewrite <- !defined_false, <- !defined_true. unfold kDefaultTraceClockSource.
  destruct (defined "__linux__" D), (defined "__linux__" D');
    repeat split; try tauto; try discriminate; intros [H1 H2];
    reflexivity || (specialize (H1 eq_refl); discriminate H1)
    || (specialize (H2 eq_refl); discriminate H2).
Qed.

Lemma kDefaultTraceClockSource_spec_witness :
  "__linux__" ∈ android_build
  /\ kDefaultTraceClockSource android_build = kDual
  /\ kDefaultTraceClockSource android_build = kDefaultTraceClockSource host_build.
Proof.
  assert (Hlinux : "__linux__" ∈ android_build)
    by (apply defined_true; vm_compute; reflexivity).
  assert (Hagree : "__linux__" ∈ android_build <-> "__linux__" ∈ host_build)
    by (rewrite <- !defined_true; vm_compute; tauto).
  pose proof (kDefaultTraceClockSource_spec android_build host_build)
    as (Hdual & _ & _ & Hsame).
  split; [exact Hlinux|]. split; [exact (Hdual Hlinux) | exact (Hsame Hagree)].
Defined.

(** ** Further properties *)

(** The message of each [#error] names the macro at fault: a target build
    with no sub-flag names both candidates, a host build names the
    sub-flag that is defined, [ART_TARGET_LINUX] first when both are. *)
Theorem target_block_error_message (D : gset string) (msg : string) :
  target_block D = Error msg ->
  ("ART_TARGET" ∈ D ->
   msg = "Either ART_TARGET_LINUX or ART_TARGET_ANDROID needs to be defined for target builds.")
  /\ (("ART_TARGET" ∉ D) -> "ART_TARGET_LINUX" ∈ D ->
      msg = "ART_TARGET_LINUX defined for host build.")
  /\ (("ART_TARGET" ∉ D) -> ("ART_TARGET_LINUX" ∉ D) ->
      msg = "ART_TARGET_ANDROID defined for host build.").
Proof.
  rewrite <- !defined_false, <- !defined_true. unfold target_block.
  destruct (defined "ART_TARGET" D), (defined "ART_TARGET_LINUX" D),
    (defined "ART_TARGET_ANDROID" D); intros [= <-];
    repeat split; intros; reflexivity || discriminate.
Qed.

Lemma target_block_error_message_witness :
  target_block {[ "ART_TARGET_LINUX"; "ART_TARGET_ANDROID" ]}
  = Error "ART_TARGET_LINUX defined for host build.".
Proof.
  destruct (target_block {[ "ART_TARGET_LINUX"; "ART_TARGET_ANDROID" ]})
    as [target | msg] eqn:Hblock.
  - exfalso. vm_compute in Hblock. discriminate Hblock.
  - f_equal.
    apply (target_block_error_message _ msg Hblock).
    + apply defined_false. vm_compute. reflexivity.
    + apply defined_true. vm_compute. reflexivity.
Defined.

(** The sizes: [kBitsPerByte] is 2 to the power [kBitsPerByteLog2];
    [kBitsPerIntPtrT] is 32 under ILP32 and 64 under LP64; [MB] and [GB]
    are [2^20] and [2^30] in both data models (no wrap-around);
    [kStackAlignment] is 16. *)
Theorem runtime_sizes (dm : DataModel) :
  kBitsPerByte = 2 ^ kBitsPerByteLog2
  /\ kBitsPerIntPtrT dm = sizeof_intptr_t dm * kBitsPerByte
  /\ kBitsPerIntPtrT ILP32 = 32
  /\ kBitsPerIntPtrT LP64 = 64
  /\ MB dm = 2 ^ 20
  /\ GB dm = 2 ^ 30
  /\ kStackAlignment = 16.
Proof. destruct dm; repeat split; reflexivity. Qed.

(** ** What the header reads *)


(** Membership of a literal name in a literal list of names. *)
Ltac in_names := apply list_elem_of_In; simpl; tauto.









(** Each of the eleven macros is read: for each there is a set of macros
    where defining it changes the outcome of the header. *)
Theorem tested_macros_all_matter (dm : DataModel) (name : string) :
  name ∈ tested_macros ->
  exists D : gset string, globals_h dm (D ∪ {[ name ]}) ≠ globals_h dm D.
Proof.
  intros Hin. apply list_elem_of_In in Hin. simpl in Hin.
  destruct dm;
    repeat (destruct Hin as [<- | Hin];
            [first [ exists ∅; vm_compute; discriminate
                   | exists {[ "ART_TARGET" ]}; vm_compute; discriminate ] |]);
    destruct Hin.
Qed.

Lemma tested_macros_all_matter_witness :
  exists D : gset string,
    globals_h ILP32 (D ∪ {[ "ART_TARGET_ANDROID" ]}) ≠ globals_h ILP32 D.
Proof.
  apply (tested_macros_all_matter ILP32 "ART_TARGET_ANDROID"). in_names.
Defined.

(** ** The resolved platform identity *)

(** In every configuration the header resolves, [kIsTargetLinux] implies
    [kIsTargetBuild], so [kIsTargetLinux] and [kHostStaticBuildEnabled]
    are never both [true]; a host build has neither sub-flag defined; a
    target build has one of them defined, [ART_TARGET_ANDROID] when
    [kIsTargetLinux] is [false]. *)
Theorem resolved_target_identity (dm : DataModel) (D : gset string) (g : Resolved.t) :
  globals_h dm D = Ok g ->
  (Resolved.kIsTargetLinux g = true -> Resolved.kIsTargetBuild g = true)
  /\ ~ (Resolved.kIsTargetLinux g = true /\ Resolved.kHostStaticBuildEnabled g = true)
  /\ (Resolved.kIsTargetBuild g = false ->
      ("ART_TARGET_LINUX" ∉ D) /\ ("ART_TARGET_ANDROID" ∉ D))
  /\ (Resolved.kIsTargetBuild g = true ->
      "ART_TARGET_LINUX" ∈ D \/ "ART_TARGET_ANDROID" ∈ D)
  /\ (Resolved.kIsTargetBuild g = true -> Resolved.kIsTargetLinux g = false ->
      "ART_TARGET_ANDROID" ∈ D).
Proof.
  intros Hg. resolved Hg. simpl. rewrite kHostStaticBuildEnabled_eq.
  rewrite <- !defined_false, <- !defined_true.
  unfold target_block in Htarget.
  destruct (defined "ART_TARGET" D), (defined "ART_TARGET_LINUX" D),
    (defined "ART_TARGET_ANDROID" D); simplify_eq; simpl; intuition discriminate.
Qed.

Lemma resolved_target_identity_witness :
  exists g : Resolved.t,
    globals_h ILP32 android_build = Ok g
    /\ Resolved.kIsTargetBuild g = true
    /\ Resolved.kIsTargetLinux g = false
    /\ "ART_TARGET_ANDROID" ∈ android_build.
Proof.
  destruct (globals_h ILP32 android_build) as [g | msg] eqn:Hg.
  - exists g. split; [reflexivity|].
    assert (Hfields : Resolved.kIsTargetBuild g = true
                      /\ Resolved.kIsTargetLinux g = false)
      by (vm_compute in Hg; injection Hg as <-; split; reflexivity).
    destruct Hfields as [Hbuild Hlinux]. split; [exact Hbuild|]. split; [exact Hlinux|].
    exact (proj2 (proj2 (proj2 (proj2
             (resolved_target_identity ILP32 android_build g Hg)))) Hbuild Hlinux).
  - exfalso. vm_compute in Hg. discriminate Hg.
Defined.

(** The toggles are independent.  For each of the three platform
    identities and each value of the debug, Baker, Brooks, table-lookup,
    poisoning, TLAB and vdex flags and of the clock source ([kDual] or
    [kWall]), some set of macros makes the header resolve to exactly
    these; nothing rejects two read-barrier kinds at once. *)
Theorem every_combination_resolves
    (dm : DataModel) (target : Target)
    (debug baker brooks table poison tlab vdex dual : bool) :
  (kIsTargetLinux target = true -> kIsTargetBuild target = true) ->
  exists (D : gset string) (g : Resolved.t),
    globals_h dm D = Ok g
    /\ Resolved.kIsTargetBuild g = kIsTargetBuild target
    /\ Resolved.kIsTargetLinux g = kIsTargetLinux target
    /\ Resolved.kIsDebugBuild g = debug
    /\ Resolved.kUseBakerReadBarrier g = baker
    /\ Resolved.kUseBrooksReadBarrier g = brooks
    /\ Resolved.kUseTableLookupReadBarrier g = table
    /\ Resolved.kPoisonHeapReferences g = poison
    /\ Resolved.kUseTlab g = tlab
    /\ Resolved.kIsVdexEnabled g = vdex
    /\ Resolved.kDefaultTraceClockSource g = (if dual then kDual else kWall).
Proof.
  intros Hid.
  exists (list_to_set
    ((if kIsTargetBuild target then
        [ "ART_TARGET";
          if kIsTargetLinux target then "ART_TARGET_LINUX" else "ART_TARGET_ANDROID" ]
      else [])
     ++ (if debug then [] else [ "NDEBUG" ])
     ++ (if baker then [ "USE_BAKER_READ_BARRIER" ] else [])
     ++ (if brooks then [ "USE_BROOKS_READ_BARRIER" ] else [])
     ++ (if table then [ "USE_TABLE_LOOKUP_READ_BARRIER" ] else [])
     ++ (if poison then [ "USE_HEAP_POISONING" ] else [])
     ++ (if tlab then [ "ART_USE_TLAB" ] else [])
     ++ (if vdex then [ "ART_ENABLE_VDEX" ] else [])
     ++ (if dual then [ "__linux__" ] else []))).
  destruct target as [[] []]; simpl in Hid; try (specialize (Hid eq_refl); discriminate Hid);
    clear Hid;
    destruct dm, debug, baker, brooks, table, poison, tlab, vdex, dual;
    eexists; (split; [vm_compute; reflexivity|]); repeat split.
Qed.

Lemma every_combination_resolves_witness :
  exists (D : gset string) (g : Resolved.t),
    globals_h LP64 D = Ok g
    /\ Resolved.kIsTargetBuild g = true
    /\ Resolved.kIsTargetLinux g = true
    /\ Resolved.kUseBakerReadBarrier g = true
    /\ Resolved.kUseBrooksReadBarrier g = true
    /\ Resolved.kUseTableLookupReadBarrier g = true.
Proof.
  destruct (every_combination_resolves LP64
              {| kIsTargetBuild := true; kIsTargetLinux := true |}
              false true true true false false false true (fun _ => eq_refl))
    as (D & g & Hg & Hbuild & Hlinux & _ & Hbaker & Hbrooks & Htable & _).
  exists D, g. repeat split; assumption.
Defined.

(** ** The null-check range helper and the page *)

Lemma CanDoImplicitNullCheckOn_lt (dm : DataModel) (offset : Z) :
  CanDoImplicitNullCheckOn dm offset = true <-> offset < 4096.
Proof.
  unfold CanDoImplicitNullCheckOn. rewrite to_uintptr_t_kPageSize. apply Z.ltb_lt.
Qed.

Lemma CanDoImplicitNullCheckOn_ge (dm : DataModel) (offset : Z) :
  CanDoImplicitNullCheckOn dm offset = false <-> 4096 <= offset.
Proof.
  unfold CanDoImplicitNullCheckOn. rewrite to_uintptr_t_kPageSize. apply Z.ltb_ge.
Qed.

(** For a [uintptr_t] offset, [CanDoImplicitNullCheckOn] accepts exactly
    the offsets of page 0: those whose page number, [offset / kPageSize]
    or [offset >> 12], is zero.  The accepted offsets are closed downwards,
    and no non-zero multiple of [kLargeObjectAlignment] is accepted. *)
Theorem CanDoImplicitNullCheckOn_first_page (dm : DataModel) (offset : Z) :
  is_uintptr_t dm offset ->
  (CanDoImplicitNullCheckOn dm offset = true <-> offset / kPageSize = 0)
  /\ (CanDoImplicitNullCheckOn dm offset = true <-> Z.shiftr offset 12 = 0)
  /\ (forall below : Z,
        0 <= below <= offset ->
        CanDoImplicitNullCheckOn dm offset = true ->
        CanDoImplicitNullCheckOn dm below = true)
  /\ (offset <> 0 -> (kLargeObjectAlignment dm | offset) ->
      CanDoImplicitNullCheckOn dm offset = false).
Proof.
  intros [Hlo _].
  assert (Hpage : offset < 4096 <-> offset / 4096 = 0).
  { split.
    - intros Hlt. apply Z.div_small. lia.
    - intros Hdiv. pose proof (Z.div_mod offset 4096 ltac:(lia)) as Hdm.
      pose proof (Z.mod_pos_bound offset 4096 ltac:(lia)). lia. }
  split; [rewrite CanDoImplicitNullCheckOn_lt; exact Hpage|].
  split; [rewrite CanDoImplicitNullCheckOn_lt, Z.shiftr_div_pow2 by lia; exact Hpage|].
  split.
  - intros below Hbelow. rewrite !CanDoImplicitNullCheckOn_lt. lia.
  - intros Hnz [k Hk]. apply CanDoImplicitNullCheckOn_ge.
    assert (Hlarge : kLargeObjectAlignment dm = 4096) by (destruct dm; reflexivity).
    rewrite Hlarge in Hk. nia.
Qed.

Lemma CanDoImplicitNullCheckOn_first_page_witness :
  is_uintptr_t ILP32 8192
  /\ CanDoImplicitNullCheckOn ILP32 8192 = false.
Proof.
  assert (Hrange : is_uintptr_t ILP32 8192) by (vm_compute; split; congruence).
  split; [exact Hrange|].
  apply (CanDoImplicitNullCheckOn_first_page ILP32 8192 Hrange).
  - discriminate.
  - exists 2. reflexivity.
Defined.

(** An argument of a signed type is converted to [uintptr_t] at the call.
    For a value in the range of [intptr_t] the answer is [true] exactly
    when the value lies in [0, kPageSize): every negative offset is
    refused, because it converts to an offset of at least [2^31]. *)
Theorem CanDoImplicitNullCheckOn_signed_argument (dm : DataModel) (z : Z) :
  - 2 ^ (uintptr_bits dm - 1) <= z < 2 ^ (uintptr_bits dm - 1) ->
  is_uintptr_t dm (to_uintptr_t dm z)
  /\ (CanDoImplicitNullCheckOn dm (to_uintptr_t dm z) = true <-> 0 <= z < kPageSize)
  /\ (z < 0 -> 2 ^ 31 <= to_uintptr_t dm z).
Proof.
  intros Hz. unfold is_uintptr_t, to_uintptr_t, to_unsigned, kPageSize.
  rewrite CanDoImplicitNullCheckOn_lt.
  assert (Hw : 2 ^ uintptr_bits dm = 2 * 2 ^ (uintptr_bits dm - 1)
               /\ 2 ^ 31 <= 2 ^ (uintptr_bits dm - 1)).
  { destruct dm; vm_compute; split; congruence. }
  destruct Hw as [Hw Hhalf]. rewrite Hw in *.
  set (h := 2 ^ (uintptr_bits dm - 1)) in *.
  assert (Hmod : z mod (2 * h) = if z <? 0 then z + 2 * h else z).
  { destruct (Z.ltb_spec z 0).
    - symmetry. apply (Z.mod_unique z (2 * h) (-1)); lia.
    - apply Z.mod_small. lia. }
  rewrite Hmod. destruct (Z.ltb_spec z 0); repeat split; lia.
Qed.

Lemma CanDoImplicitNullCheckOn_signed_argument_witness :
  (- 2 ^ (uintptr_bits LP64 - 1) <= -8 < 2 ^ (uintptr_bits LP64 - 1))
  /\ 2 ^ 31 <= to_uintptr_t LP64 (-8).
Proof.
  assert (Hz : - 2 ^ (uintptr_bits LP64 - 1) <= -8 < 2 ^ (uintptr_bits LP64 - 1))
    by (vm_compute; split; congruence).
  split; [exact Hz|].
  apply (CanDoImplicitNullCheckOn_signed_argument LP64 (-8) Hz). reflexivity.
Defined.

(** ** Alignments *)

(** The alignments nest, in both data models: an address aligned to
    [kLargeObjectAlignment] is aligned to [kStackAlignment], one aligned
    to [kStackAlignment] is aligned to [kObjectAlignment], and one aligned
    to [kObjectAlignment] is aligned to [kHeapReferenceSize].  Alignment
    to [kObjectAlignment] is what [kObjectAlignmentShift] tests: shifting
    right then left by it gives the address back, and the bits below
    [kObjectAlignment] are zero. *)
Theorem alignments_nest (dm : DataModel) (address : Z) :
  ((kLargeObjectAlignment dm | address) -> (kStackAlignment | address))
  /\ ((kStackAlignment | address) -> (kObjectAlignment dm | address))
  /\ ((kObjectAlignment dm | address) -> (kHeapReferenceSize dm | address))
  /\ ((kObjectAlignment dm | address) <->
      Z.shiftl (Z.shiftr address kObjectAlignmentShift) kObjectAlignmentShift = address)
  /\ ((kObjectAlignment dm | address) <->
      Z.land address (kObjectAlignment dm - 1) = 0).
Proof.
  assert (Hlarge : kLargeObjectAlignment dm = 256 * kStackAlignment)
    by (destruct dm; reflexivity).
  assert (Hobject : kObjectAlignment dm = 8) by (destruct dm; reflexivity).
  assert (Href : kHeapReferenceSize dm = 4) by (destruct dm; reflexivity).
  rewrite Hlarge, Hobject, Href. unfold kStackAlignment, kObjectAlignmentShift.
  split; [intros [k ->]; exists (k * 256); lia|].
  split; [intros [k ->]; exists (k * 2); lia|].
  split; [intros [k ->]; exists (k * 2); lia|].
  rewrite Z.shiftr_div_pow2, Z.shiftl_mul_pow2 by lia.
  change (8 - 1) with (Z.ones 3). rewrite Z.land_ones by lia.
  change (2 ^ 3) with 8.
  pose proof (Z.div_mod address 8 ltac:(lia)) as Hdm.
  pose proof (Z.mod_pos_bound address 8 ltac:(lia)) as Hbound.
  split; (split; [intros [k ->]; rewrite ?Z.div_mul, ?Z.mod_mul by lia; lia|]).
  - intros Hback. exists (address / 8). lia.
  - intros Hzero. exists (address / 8). lia.
Qed.

Lemma alignments_nest_witness :
  (kLargeObjectAlignment LP64 | 12288)
  /\ (kStackAlignment | 12288).
Proof.
  assert (Hpage : (kLargeObjectAlignment LP64 | 12288)) by (exists 3; reflexivity).
  split; [exact Hpage|].
  exact (proj1 (alignments_nest LP64 12288) Hpage).
Defined.

(** ** Read-barrier flags of a resolved configuration *)

(** In every configuration the header resolves, [kUseReadBarrier] is
    [kUseBakerOrBrooksReadBarrier] or [kUseTableLookupReadBarrier];
    [kUseBakerOrBrooksReadBarrier] is [true] exactly when one of the Baker
    and Brooks macros is defined, and then the compiler emits read
    barriers; [kEmitCompilerReadBarrier] is [false] exactly when none of
    the three macros is defined. *)
Theorem resolved_read_barrier_flags (dm : DataModel) (D : gset string) (g : Resolved.t) :
  globals_h dm D = Ok g ->
  Resolved.kUseReadBarrier g
  = Resolved.kUseBakerOrBrooksReadBarrier g || Resolved.kUseTableLookupReadBarrier g
  /\ (Resolved.kUseBakerOrBrooksReadBarrier g = true <->
      "USE_BAKER_READ_BARRIER" ∈ D \/ "USE_BROOKS_READ_BARRIER" ∈ D)
  /\ (Resolved.kUseBakerOrBrooksReadBarrier g = true ->
      Resolved.kUseReadBarrier g = true /\ Resolved.kEmitCompilerReadBarrier g = true)
  /\ (Resolved.kEmitCompilerReadBarrier g = false <->
      ("USE_BAKER_READ_BARRIER" ∉ D)
      /\ ("USE_BROOKS_READ_BARRIER" ∉ D)
      /\ ("USE_TABLE_LOOKUP_READ_BARRIER" ∉ D)).
Proof.
  intros Hg. resolved Hg. simpl.
  rewrite <- !defined_false, <- !defined_true.
  unfold kEmitCompilerReadBarrier, kEmitCompilerReadBarrier_from, kForceReadBarrier,
    kUseReadBarrier, kUseBakerOrBrooksReadBarrier, kUseBakerReadBarrier,
    kUseBrooksReadBarrier, kUseTableLookupReadBarrier.
  destruct (defined "USE_BAKER_READ_BARRIER" D),
    (defined "USE_BROOKS_READ_BARRIER" D),
    (defined "USE_TABLE_LOOKUP_READ_BARRIER" D); simpl; intuition discriminate.
Qed.

Lemma resolved_read_barrier_flags_witness :
  exists g : Resolved.t,
    globals_h LP64 android_build = Ok g
    /\ Resolved.kUseBakerOrBrooksReadBarrier g = true
    /\ Resolved.kEmitCompilerReadBarrier g = true.
Proof.
  destruct (globals_h LP64 android_build) as [g | msg] eqn:Hg.
  - exists g. split; [reflexivity|].
    assert (Hbb : Resolved.kUseBakerOrBrooksReadBarrier g = true)
      by (vm_compute in Hg; injection Hg as <-; reflexivity).
    split; [exact Hbb|].
    exact (proj2 (proj1 (proj2 (proj2
             (resolved_read_barrier_flags LP64 android_build g Hg))) Hbb)).
  - exfalso. vm_compute in Hg. discriminate Hg.
Defined.

(** ** The data model *)

